(** * The "Schedule a New Class" page (src/app/dashboard/faculty/classes/create/page.tsx)

    A shallow embedding of the [CreateClass] component: its React state, the
    two asynchronous routines [fetchCourses] and [handleSubmit], and the part
    of the rendered view that gates the form.  The JavaScript runtime (the
    [Date] built-in) and the remote table store (the Supabase client) are
    external to the page; they are taken as a [Runtime] record that every
    definition is parameterised by. *)

From Stdlib Require Import String List ZArith Bool Lia.
From Stdlib Require Import DecimalString DecimalZ.
Import ListNotations.

Open Scope string_scope.
Open Scope list_scope.

(** ** JavaScript values used by the page *)

(** [!s] on a string is true exactly for the empty string. *)
Definition truthy (s : string) : bool := negb (s =? "").

(** [s || null] *)
Definition or_null (s : string) : option string :=
  if truthy s then Some s else None.

(** [s || d] *)
Definition or_else (s d : string) : string :=
  if truthy s then s else d.

(** A [Date] object is its time value: milliseconds since the epoch, or
    [None] for the NaN time value of an "Invalid Date". *)
Definition Date : Type := option Z.

(** [a <= b] on two [Date] objects: both are converted to their time values,
    and any comparison with NaN is false. *)
Definition date_le (a b : Date) : bool :=
  match a, b with
  | Some x, Some y => (x <=? y)%Z
  | _, _ => false
  end.

(** A thrown value, or the [error] member of a store response; the page only
    ever reads its [message]. *)
Module JsError.
Record t : Type := mk { message : string }.
End JsError.

(** [new Error(msg)] *)
Definition Error (msg : string) : JsError.t := JsError.mk msg.

(** ** Rows *)

Module User.
Record t : Type := mk { id : string; role : string }.
End User.

(** A row of [courses].  The generated [Database] type is not part of the
    sources; the page reads [id], [code] and [title]. *)
Module Course.
Record t : Type := mk { id : string; code : string; title : string }.
End Course.

(** A row of [teaching_assignments] restricted to the selected column. *)
Module Assignment.
Record t : Type := mk { course_id : string }.
End Assignment.

(** The object literal [classData] of [handleSubmit]. *)
Module ClassData.
Record t : Type := mk {
    course_id : string;
    title : string;
    description : option string;
    start_time : string;
    end_time : string;
    meeting_link : option string;
    created_by : string;
    reminder_sent : bool;
    updated_at : string
  }.
End ClassData.

(** A row of [class_sessions] as the store returns it after an insert. *)
Module Session.
Record t : Type := mk { id : string; row : ClassData.t }.
End Session.

(** ** Queries against the table store *)

Inductive Filter : Type :=
| eq_ (column value : string)
| in_ (column : string) (values : list string).

Inductive Verb : Type :=
| select (columns : string)
| insert_select (row : ClassData.t).   (* .insert(row).select() *)

Record Query : Type := from {
  table : string;
  verb : Verb;
  filters : list Filter;
  order : option string
}.

(** What [await]ing a query yields: the promise either rejects, or resolves to
    [{ data, error }], each of which may be null. *)
Record Response (T : Type) : Type := mkResponse {
  data : option (list T);
  error : option JsError.t
}.
Arguments mkResponse {T}.
Arguments data {T}.
Arguments error {T}.

Inductive Reply (T : Type) : Type :=
| Resolved (r : Response T)
| Rejected (e : JsError.t).
Arguments Resolved {T}.
Arguments Rejected {T}.

(** ** The environment of the page *)

Record Runtime : Type := {
  (** [new Date(s)]: the time value the runtime parses [s] to *)
  date_parse : string -> Date;
  (** [Date.prototype.toISOString] on a valid time value *)
  date_iso : Z -> string;
  (** the time value of [new Date()] *)
  now : Z;
  (** the table store, one entry per table the page talks to *)
  teaching_assignments : Query -> Reply Assignment.t;
  courses_table : Query -> Reply Course.t;
  class_sessions : Query -> Reply Session.t
}.

(** ** Component state *)

Record Message : Type := mkMessage { text : string; type : string }.

Record FormData : Type := mkFormData {
  courseId : string;
  title : string;
  description : string;
  startDate : string;
  startTime : string;
  endDate : string;
  endTime : string;
  meetingLink : string
}.

Record State : Type := mkState {
  courses : list Course.t;
  loading : bool;
  submitting : bool;
  message : Message;
  formData : FormData
}.

(** The values passed to [useState]. *)
Definition initial : State := {|
  courses := [];
  loading := true;
  submitting := false;
  message := {| text := ""; type := "" |};
  formData := {| courseId := ""; title := ""; description := "";
                 startDate := ""; startTime := ""; endDate := "";
                 endTime := ""; meetingLink := "" |}
|}.

(** ** Observable effects *)

(** The only timer callback of the page: [() => router.push(path)]. *)
Inductive Callback : Type :=
| router_push (path : string).

Inductive Event : Type :=
| EvPreventDefault
| EvSetCourses (cs : list Course.t)
| EvSetLoading (b : bool)
| EvSetSubmitting (b : bool)
| EvSetMessage (m : Message)
| EvSetFormData (f : FormData)
| EvQuery (q : Query)
| EvConsoleError (label : string) (e : JsError.t)
| EvSetTimeout (cb : Callback) (ms : Z).

(** ** A monad for the body of an async function

    A computation transforms the component state, emits events in order, and
    completes normally, by [return], or by [throw]. *)

Inductive Completion (A : Type) : Type :=
| Normal (a : A)
| Return
| Throw (e : JsError.t).
Arguments Normal {A}.
Arguments Return {A}.
Arguments Throw {A}.

Record Result (A : Type) : Type := mkResult {
  completion : Completion A;
  final : State;
  emitted : list Event
}.
Arguments mkResult {A}.
Arguments completion {A}.
Arguments final {A}.
Arguments emitted {A}.

Definition M (A : Type) : Type := State -> Result A.

Definition ret {A} (a : A) : M A := fun s => mkResult (Normal a) s [].

Definition bind {A B} (m : M A) (k : A -> M B) : M B := fun s =>
  match m s with
  | mkResult (Normal a) s1 es1 =>
      match k a s1 with
      | mkResult c s2 es2 => mkResult c s2 (es1 ++ es2)
      end
  | mkResult Return s1 es1 => mkResult Return s1 es1
  | mkResult (Throw e) s1 es1 => mkResult (Throw e) s1 es1
  end.

Notation "x <- m ;; k" := (bind m (fun x => k))
  (at level 61, m at next level, right associativity).
Notation "m ;; k" := (bind m (fun _ => k))
  (at level 61, right associativity).

(** [return] *)
Definition return_ {A} : M A := fun s => mkResult Return s [].

(** [throw e] *)
Definition throw {A} (e : JsError.t) : M A := fun s => mkResult (Throw e) s [].

(** [if (c) { m }] *)
Definition when (c : bool) (m : M unit) : M unit := if c then m else ret tt.

(** [try { m } catch (e) { h e }] *)
Definition try_catch {A} (m : M A) (h : JsError.t -> M A) : M A := fun s =>
  match m s with
  | mkResult (Throw e) s1 es1 =>
      match h e s1 with
      | mkResult c s2 es2 => mkResult c s2 (es1 ++ es2)
      end
  | r => r
  end.

(** [try { m } finally { f }]: [f] runs whatever the completion of [m], and
    overrides it only when it completes abruptly itself. *)
Definition try_finally {A} (m : M A) (f : M unit) : M A := fun s =>
  match m s with
  | mkResult c s1 es1 =>
      match f s1 with
      | mkResult (Normal _) s2 es2 => mkResult c s2 (es1 ++ es2)
      | mkResult Return s2 es2 => mkResult Return s2 (es1 ++ es2)
      | mkResult (Throw e) s2 es2 => mkResult (Throw e) s2 (es1 ++ es2)
      end
  end.

(** The body of a function: a [return] inside ends the call normally. *)
Definition function (m : M unit) : M unit := fun s =>
  match m s with
  | mkResult Return s1 es1 => mkResult (Normal tt) s1 es1
  | r => r
  end.

Definition emit (e : Event) : M unit := fun s => mkResult (Normal tt) s [e].

Definition get : M State := fun s => mkResult (Normal s) s [].

Definition put (s : State) : M unit := fun _ => mkResult (Normal tt) s [].

(** ** State setters and other primitives *)

Definition setCourses (cs : list Course.t) : M unit :=
  s <- get ;;
  put (mkState cs (loading s) (submitting s) (message s) (formData s)) ;;
  emit (EvSetCourses cs).

Definition setLoading (b : bool) : M unit :=
  s <- get ;;
  put (mkState (courses s) b (submitting s) (message s) (formData s)) ;;
  emit (EvSetLoading b).

Definition setSubmitting (b : bool) : M unit :=
  s <- get ;;
  put (mkState (courses s) (loading s) b (message s) (formData s)) ;;
  emit (EvSetSubmitting b).

Definition setMessage (m : Message) : M unit :=
  s <- get ;;
  put (mkState (courses s) (loading s) (submitting s) m (formData s)) ;;
  emit (EvSetMessage m).

(** [setFormData(f)] with an updater function; a plain value [v] is
    [setFormData (fun _ => v)]. *)
Definition setFormData (f : FormData -> FormData) : M unit :=
  s <- get ;;
  let v := f (formData s) in
  put (mkState (courses s) (loading s) (submitting s) (message s) v) ;;
  emit (EvSetFormData v).

Definition preventDefault : M unit := emit EvPreventDefault.

Definition console_error (label : string) (e : JsError.t) : M unit :=
  emit (EvConsoleError label e).

Definition setTimeout (cb : Callback) (ms : Z) : M unit :=
  emit (EvSetTimeout cb ms).

(** [d.toISOString()] throws a [RangeError] on an invalid date. *)
Definition toISOString (rt : Runtime) (d : Date) : M string :=
  match d with
  | Some t => ret (date_iso rt t)
  | None => throw (Error "Invalid time value")
  end.

(** [await q]: the query is sent, and a rejected promise is a [throw]. *)
Definition await {T} (store : Query -> Reply T) (q : Query) : M (Response T) :=
  emit (EvQuery q) ;;
  match store q with
  | Resolved r => ret r
  | Rejected e => throw e
  end.

(** [!rows || rows.length === 0] *)
Definition no_rows {T} (rows : option (list T)) : bool :=
  match rows with
  | None => true
  | Some l => (length l =? 0)%nat
  end.

(** ** The component *)

Section CreateClass.

Variable rt : Runtime.

(** [supabase.from("teaching_assignments").select("course_id").eq("user_id", uid)] *)
Definition assignmentsQuery (uid : string) : Query :=
  {| table := "teaching_assignments"; verb := select "course_id";
     filters := [eq_ "user_id" uid]; order := None |}.

(** [supabase.from("courses").select("*").in("id", courseIds).order("code")] *)
Definition coursesQuery (courseIds : list string) : Query :=
  {| table := "courses"; verb := select "*";
     filters := [in_ "id" courseIds]; order := Some "code" |}.

(** [supabase.from("class_sessions").insert(classData).select()] *)
Definition insertQuery (classData : ClassData.t) : Query :=
  {| table := "class_sessions"; verb := insert_select classData;
     filters := []; order := None |}.

(** [!user || user.role !== "faculty"] *)
Definition not_faculty (user : option User.t) : bool :=
  match user with
  | None => true
  | Some u => negb (User.role u =? "faculty")
  end.

(** The async function run by the effect on [user]. *)
Definition fetchCourses (user : option User.t) : M unit :=
  function (
    match user with
    | None => return_
    | Some u =>
      if not_faculty user then return_ else
      try_finally
        (try_catch
           (setLoading true ;;
            r <- await (teaching_assignments rt) (assignmentsQuery (User.id u)) ;;
            let teachingAssignments := data r in
            match error r with Some assignmentsError => throw assignmentsError | None => ret tt end ;;
            when (no_rows teachingAssignments)
              (setMessage {| text := "You are not assigned to any courses. Please contact an administrator.";
                             type := "error" |} ;;
               setLoading false ;;
               return_) ;;
            let courseIds :=
              map Assignment.course_id
                  match teachingAssignments with Some l => l | None => [] end in
            r' <- await (courses_table rt) (coursesQuery courseIds) ;;
            let coursesData := data r' in
            match error r' with Some coursesError => throw coursesError | None => ret tt end ;;
            match coursesData with
            | Some (c0 :: cs) =>
                setCourses (c0 :: cs) ;;
                setFormData (fun prev =>
                  mkFormData (Course.id c0) (title prev) (description prev)
                             (startDate prev) (startTime prev) (endDate prev)
                             (endTime prev) (meetingLink prev))
            | _ =>
                setMessage {| text := "No courses found. Please contact an administrator.";
                              type := "error" |}
            end)
           (fun error =>
              console_error "Error fetching courses:" error ;;
              setMessage {| text := "Failed to load courses. Please refresh the page.";
                            type := "error" |}))
        (setLoading false)
    end).

(** The validation of lines 102-109: some required field is empty. *)
Definition missing_required (f : FormData) : bool :=
  negb (truthy (courseId f)) ||
  negb (truthy (title f)) ||
  negb (truthy (startDate f)) ||
  negb (truthy (startTime f)) ||
  negb (truthy (endDate f)) ||
  negb (truthy (endTime f)).

(** The row built at lines 137-147 from the user, the form data and the two
    ISO strings; [updated_at] is [new Date().toISOString()]. *)
Definition classData (user : User.t) (formData : FormData)
    (startDateTime endDateTime : string) : ClassData.t :=
  {| ClassData.course_id := courseId formData;
     ClassData.title := title formData;
     ClassData.description := or_null (description formData);
     ClassData.start_time := startDateTime;
     ClassData.end_time := endDateTime;
     ClassData.meeting_link := or_null (meetingLink formData);
     ClassData.created_by := User.id user;
     ClassData.reminder_sent := false;
     ClassData.updated_at := date_iso rt (now rt) |}.

(** The form's [onSubmit] handler.  [formData] is the value the handler closes
    over: the state of the render it belongs to. *)
Definition handleSubmit (user : option User.t) : M unit :=
  function (
    preventDefault ;;
    match user with
    | Some u =>
      if not_faculty user then
        setMessage {| text := "You don't have permission to perform this action";
                      type := "error" |} ;;
        return_
      else
      s0 <- get ;;
      let formData := formData s0 in
      try_finally
        (try_catch
           (setSubmitting true ;;
            setMessage {| text := ""; type := "" |} ;;
            when (missing_required formData)
              (setMessage {| text := "Please fill in all required fields"; type := "error" |} ;;
               setSubmitting false ;;
               return_) ;;
            iso <- try_catch
                     (let startDate := date_parse rt (startDate formData ++ "T" ++ startTime formData) in
                      let endDate := date_parse rt (endDate formData ++ "T" ++ endTime formData) in
                      startDateTime <- toISOString rt startDate ;;
                      endDateTime <- toISOString rt endDate ;;
                      ret (startDateTime, endDateTime))
                     (fun error =>
                        setMessage {| text := "Invalid date or time format"; type := "error" |} ;;
                        setSubmitting false ;;
                        return_) ;;
            let startDateTime := fst iso in
            let endDateTime := snd iso in
            when (date_le (date_parse rt endDateTime) (date_parse rt startDateTime))
              (setMessage {| text := "End time must be after start time"; type := "error" |} ;;
               setSubmitting false ;;
               return_) ;;
            let classData := classData u formData startDateTime endDateTime in
            r <- await (class_sessions rt) (insertQuery classData) ;;
            match error r with
            | Some error =>
                console_error "Supabase error:" error ;;
                throw (Error ("Database error: " ++ JsError.message error))
            | None => ret tt
            end ;;
            when (no_rows (data r))
              (throw (Error "No data returned from database after insert")) ;;
            setMessage {| text := "Class session created successfully"; type := "success" |} ;;
            setFormData (fun _ =>
              {| courseId := courseId formData;
                 title := ""; description := ""; startDate := ""; startTime := "";
                 endDate := ""; endTime := ""; meetingLink := "" |}) ;;
            setTimeout (router_push "/dashboard/faculty/classes") 2000)
           (fun error =>
              console_error "Error creating class session:" error ;;
              setMessage {| text := "Failed to create class session: "
                                    ++ or_else (JsError.message error) "Unknown error";
                            type := "error" |}))
        (setSubmitting false)
    | None =>
      setMessage {| text := "You don't have permission to perform this action";
                    type := "error" |} ;;
      return_
    end).

(** What the component returns, as far as the form is concerned. *)
Inductive View : Type :=
| NoPermission
| Spinner
| Form (banner : option Message) (submit_disabled : bool).

(** [user?.role !== "faculty"] *)
Definition role_is_not_faculty (user : option User.t) : bool :=
  match user with
  | None => true
  | Some u => negb (User.role u =? "faculty")
  end.

(** The render of [CreateClass] (lines 190-397). *)
Definition CreateClass (user : option User.t) (s : State) : View :=
  if role_is_not_faculty user then NoPermission
  else if loading s then Spinner
  else Form (if truthy (text (message s)) then Some (message s) else None)
            (submitting s || (length (courses s) =? 0)%nat).

End CreateClass.

(** ** Observations on a run *)

(** The queries sent to the store, in order. *)
Definition queries (es : list Event) : list Query :=
  flat_map (fun e => match e with EvQuery q => [q] | _ => [] end) es.

(** The rows of the insert queries among them. *)
Definition inserts (es : list Event) : list ClassData.t :=
  flat_map (fun q => match verb q with insert_select row => [row] | _ => [] end)
           (queries es).

(** Running a timer callback navigates to its path. *)
Definition fire (cb : Callback) : string :=
  match cb with router_push path => path end.

(** The navigations performed once the timers set during a run expire. *)
Definition redirects (es : list Event) : list string :=
  flat_map (fun e => match e with EvSetTimeout cb _ => [fire cb] | _ => [] end) es.

Definition is_console_error (e : Event) : Prop :=
  match e with EvConsoleError _ _ => True | _ => False end.

(** The text fields of the form as the user typed them. *)
Definition start_input (f : FormData) : string := startDate f ++ "T" ++ startTime f.
Definition end_input (f : FormData) : string := endDate f ++ "T" ++ endTime f.

(** ** A test double of the runtime

    Its ISO strings are decimal time values, it also understands two local
    date-time strings, and its store accepts everything. *)
Module Demo.

(** The time values of the two local date-time strings. *)
Definition nine : Z := 1740819600000%Z.
Definition ten : Z := 1740823200000%Z.

Definition parse (s : string) : Date :=
  match NilEmpty.int_of_string s with
  | Some d => Some (Z.of_int d)
  | None =>
      if s =? "2025-03-01T09:00" then Some nine
      else if s =? "2025-03-01T10:00" then Some ten
      else None
  end.

Definition iso (t : Z) : string := NilEmpty.string_of_int (Z.to_int t).

Definition accept (q : Query) : Reply Session.t :=
  match verb q with
  | insert_select row => Resolved (mkResponse (Some [Session.mk "s1" row]) None)
  | select _ => Resolved (mkResponse None (Some (Error "not an insert")))
  end.

Definition cse471 : Course.t := Course.mk "c1" "CSE471" "System Analysis".

Definition rt : Runtime := {|
  date_parse := parse;
  date_iso := iso;
  now := 1740800000000%Z;
  teaching_assignments := fun _ => Resolved (mkResponse (Some [Assignment.mk "c1"]) None);
  courses_table := fun _ => Resolved (mkResponse (Some [cse471]) None);
  class_sessions := accept
|}.

(** The same runtime over a store with no assignment for anyone. *)
Definition unassigned : Runtime := {|
  date_parse := parse;
  date_iso := iso;
  now := 1740800000000%Z;
  teaching_assignments := fun _ => Resolved (mkResponse (Some []) None);
  courses_table := fun _ => Resolved (mkResponse (Some [cse471]) None);
  class_sessions := accept
|}.

(** The same runtime over a store that refuses every insert. *)
Definition refusing : Runtime := {|
  date_parse := parse;
  date_iso := iso;
  now := 1740800000000%Z;
  teaching_assignments := fun _ => Resolved (mkResponse (Some [Assignment.mk "c1"]) None);
  courses_table := fun _ => Resolved (mkResponse (Some [cse471]) None);
  class_sessions := fun _ => Resolved (mkResponse None (Some (Error "permission denied")))
|}.

Definition alice : User.t := User.mk "u1" "faculty".
Definition bob : User.t := User.mk "u2" "student".

Definition form (start_t end_t : string) : FormData :=
  {| courseId := "c1"; title := "Intro"; description := "";
     startDate := "2025-03-01"; startTime := start_t;
     endDate := "2025-03-01"; endTime := end_t; meetingLink := "" |}.

(** The page after the courses have loaded and the form has been filled. *)
Definition filled (start_t end_t : string) : State :=
  {| courses := [cse471]; loading := false; submitting := false;
     message := {| text := ""; type := "" |};
     formData := form start_t end_t |}.

End Demo.

(** ** The paths through [handleSubmit] *)

Section Paths.

Variable rt : Runtime.

(** The submission gets past every check of [handleSubmit] up to the insert:
    the user is faculty [u], no required field is empty, the two inputs parse
    to [ts] and [te], and the re-parsed ISO strings are not ordered
    [end <= start]. *)
Definition validated (user : option User.t) (s : State)
    (u : User.t) (ts te : Z) : Prop :=
  user = Some u /\
  User.role u = "faculty" /\
  missing_required (formData s) = false /\
  date_parse rt (start_input (formData s)) = Some ts /\
  date_parse rt (end_input (formData s)) = Some te /\
  date_le (date_parse rt (date_iso rt te)) (date_parse rt (date_iso rt ts)) = false.

(** The query such a submission sends. *)
Definition sent (u : User.t) (s : State) (ts te : Z) : Query :=
  insertQuery (classData rt u (formData s) (date_iso rt ts) (date_iso rt te)).

Definition success_message : Message :=
  {| text := "Class session created successfully"; type := "success" |}.

Definition failure_message (reason : string) : Message :=
  {| text := "Failed to create class session: " ++ reason; type := "error" |}.

Definition reset_form (f : FormData) : FormData :=
  {| courseId := courseId f; title := ""; description := ""; startDate := "";
     startTime := ""; endDate := ""; endTime := ""; meetingLink := "" |}.

(** The events every validated submission starts with. *)
Definition prologue (q : Query) : list Event :=
  [EvPreventDefault; EvSetSubmitting true;
   EvSetMessage {| text := ""; type := "" |}; EvQuery q].

(** What the user is told when the insert does not go through. *)
Definition failure_reason (reply : Reply Session.t) : string :=
  match reply with
  | Rejected e => or_else (JsError.message e) "Unknown error"
  | Resolved r =>
      match error r with
      | Some e => "Database error: " ++ JsError.message e
      | None => "No data returned from database after insert"
      end
  end.

(** What is logged to the console on the way. *)
Definition failure_log (reply : Reply Session.t) : list Event :=
  match reply with
  | Rejected e => [EvConsoleError "Error creating class session:" e]
  | Resolved r =>
      match error r with
      | Some e =>
          [EvConsoleError "Supabase error:" e;
           EvConsoleError "Error creating class session:"
                          (Error ("Database error: " ++ JsError.message e))]
      | None =>
          [EvConsoleError "Error creating class session:"
                          (Error "No data returned from database after insert")]
      end
  end.

(** The store's reply is not a success with at least one row. *)
Definition refused (reply : Reply Session.t) : Prop :=
  match reply with
  | Rejected _ => True
  | Resolved r => error r <> None \/ no_rows (data r) = true
  end.

End Paths.

(** ** The rest of the component *)

(** [{ ...prev, [name]: value }] on the eight fields of the form data.  A
    [name] that is none of them would add a property that nothing reads; the
    eight fields are then as before. *)
Definition assign (name value : string) (prev : FormData) : FormData :=
  if name =? "courseId" then
    mkFormData value (title prev) (description prev) (startDate prev)
               (startTime prev) (endDate prev) (endTime prev) (meetingLink prev)
  else if name =? "title" then
    mkFormData (courseId prev) value (description prev) (startDate prev)
               (startTime prev) (endDate prev) (endTime prev) (meetingLink prev)
  else if name =? "description" then
    mkFormData (courseId prev) (title prev) value (startDate prev)
               (startTime prev) (endDate prev) (endTime prev) (meetingLink prev)
  else if name =? "startDate" then
    mkFormData (courseId prev) (title prev) (description prev) value
               (startTime prev) (endDate prev) (endTime prev) (meetingLink prev)
  else if name =? "startTime" then
    mkFormData (courseId prev) (title prev) (description prev) (startDate prev)
               value (endDate prev) (endTime prev) (meetingLink prev)
  else if name =? "endDate" then
    mkFormData (courseId prev) (title prev) (description prev) (startDate prev)
               (startTime prev) value (endTime prev) (meetingLink prev)
  else if name =? "endTime" then
    mkFormData (courseId prev) (title prev) (description prev) (startDate prev)
               (startTime prev) (endDate prev) value (meetingLink prev)
  else if name =? "meetingLink" then
    mkFormData (courseId prev) (title prev) (description prev) (startDate prev)
               (startTime prev) (endDate prev) (endTime prev) value
  else prev.

(** The [onChange] handler of every control (lines 84-87); [name] and [value]
    are those of [e.target]. *)
Definition handleChange (name value : string) : M unit :=
  setFormData (assign name value).

(** The controls of the rendered form with their [name] and [value]
    attributes, in document order (lines 233-358). *)
Definition controls (f : FormData) : list (string * string) :=
  [("courseId", courseId f); ("title", title f);
   ("description", description f); ("startDate", startDate f);
   ("startTime", startTime f); ("endDate", endDate f);
   ("endTime", endTime f); ("meetingLink", meetingLink f)].

(** The [value] of the control called [name]. *)
Fixpoint value_of (name : string) (cs : list (string * string)) : option string :=
  match cs with
  | [] => None
  | (n, v) :: rest => if n =? name then Some v else value_of name rest
  end.

(** The options of the course select as (value, label) pairs
    (lines 241-249). *)
Definition course_options (cs : list Course.t) : list (string * string) :=
  if (length cs =? 0)%nat then [("", "No courses available")]
  else map (fun course =>
              (Course.id course,
               (Course.code course ++ " - " ++ Course.title course)%string)) cs.

(** ** The state during a run

    The state changes through the setters only, so the state the page is in
    at any point of a run, in particular while a query is pending, is the
    state at the start of the run with the setter calls made so far applied
    to it. *)
Definition apply_event (e : Event) (s : State) : State :=
  match e with
  | EvSetCourses cs => mkState cs (loading s) (submitting s) (message s) (formData s)
  | EvSetLoading b => mkState (courses s) b (submitting s) (message s) (formData s)
  | EvSetSubmitting b => mkState (courses s) (loading s) b (message s) (formData s)
  | EvSetMessage m => mkState (courses s) (loading s) (submitting s) m (formData s)
  | EvSetFormData f => mkState (courses s) (loading s) (submitting s) (message s) f
  | EvPreventDefault | EvQuery _ | EvConsoleError _ _ | EvSetTimeout _ _ => s
  end.

Definition replay (es : list Event) (s : State) : State :=
  fold_left (fun st e => apply_event e st) es s.

(** The course held by the form is none, or one of the courses in state. *)
Definition course_choice_valid (s : State) : Prop :=
  courseId (formData s) = "" \/
  exists course, In course (courses s) /\ Course.id course = courseId (formData s).

(** Typing into the controls one after the other. *)
Fixpoint typing (edits : list (string * string)) (s : State) : State :=
  match edits with
  | [] => s
  | (name, value) :: rest => typing rest (final (handleChange name value s))
  end.

(** ** More test doubles *)
Module Faults.

(** A runtime whose store rejects every request. *)
Definition offline : Runtime := {|
  date_parse := Demo.parse;
  date_iso := Demo.iso;
  now := 1740800000000%Z;
  teaching_assignments := fun _ => Rejected (Error "Failed to fetch");
  courses_table := fun _ => Rejected (Error "Failed to fetch");
  class_sessions := fun _ => Rejected (Error "Failed to fetch")
|}.

(** A runtime whose store answers the second read with an error. *)
Definition broken_catalogue : Runtime := {|
  date_parse := Demo.parse;
  date_iso := Demo.iso;
  now := 1740800000000%Z;
  teaching_assignments := fun _ => Resolved (mkResponse (Some [Assignment.mk "c1"]) None);
  courses_table := fun _ => Resolved (mkResponse None (Some (Error "timeout")));
  class_sessions := Demo.accept
|}.

(** A runtime whose store knows the assignment but not the course. *)
Definition dangling : Runtime := {|
  date_parse := Demo.parse;
  date_iso := Demo.iso;
  now := 1740800000000%Z;
  teaching_assignments := fun _ => Resolved (mkResponse (Some [Assignment.mk "c9"]) None);
  courses_table := fun _ => Resolved (mkResponse (Some []) None);
  class_sessions := Demo.accept
|}.

(** The runtime of [Demo.refusing] five seconds later, the store now
    accepting inserts. *)
Definition later : Runtime := {|
  date_parse := Demo.parse;
  date_iso := Demo.iso;
  now := 1740800005000%Z;
  teaching_assignments := fun _ => Resolved (mkResponse (Some [Assignment.mk "c1"]) None);
  courses_table := fun _ => Resolved (mkResponse (Some [Demo.cse471]) None);
  class_sessions := Demo.accept
|}.

(** The page after it has loaded for a faculty user who then filled the
    form. *)
Definition ready : State :=
  typing [("title", "Intro"); ("startDate", "2025-03-01"); ("startTime", "09:00");
          ("endDate", "2025-03-01"); ("endTime", "10:00")]
         (final (fetchCourses Demo.rt (Some Demo.alice) initial)).

End Faults.

(** * Properties *)

Lemma truthy_false_iff (s : string) : truthy s = false <-> s = "".
Proof.
  unfold truthy. rewrite negb_false_iff. apply String.eqb_eq.
Qed.

Lemma truthy_true_iff (s : string) : truthy s = true <-> s <> "".
Proof.
  unfold truthy. rewrite negb_true_iff. apply String.eqb_neq.
Qed.

Lemma missing_required_true_iff (f : FormData) :
  missing_required f = true <->
  courseId f = "" \/ title f = "" \/ startDate f = "" \/
  startTime f = "" \/ endDate f = "" \/ endTime f = "".
Proof.
  unfold missing_required.
  rewrite !orb_true_iff, !negb_true_iff, !truthy_false_iff. tauto.
Qed.

Lemma missing_required_false_iff (f : FormData) :
  missing_required f = false <->
  courseId f <> "" /\ title f <> "" /\ startDate f <> "" /\
  startTime f <> "" /\ endDate f <> "" /\ endTime f <> "".
Proof.
  unfold missing_required.
  rewrite !orb_false_iff, !negb_false_iff, !truthy_true_iff. tauto.
Qed.

Lemma not_faculty_false (user : option User.t) :
  not_faculty user = false <->
  exists u, user = Some u /\ User.role u = "faculty".
Proof.
  destruct user as [u|]; simpl.
  - rewrite negb_false_iff, String.eqb_eq. split.
    + intros H. now exists u.
    + now intros (u' & [= <-] & H).
  - split; [discriminate | now intros (? & [=] & _)].
Qed.

Lemma faculty_permitted (u : User.t) :
  User.role u = "faculty" -> not_faculty (Some u) = false.
Proof.
  intros H. simpl. rewrite H. reflexivity.
Qed.

Lemma Demo_parses_back (t : Z) :
  date_parse Demo.rt (date_iso Demo.rt t) = Some t.
Proof.
  simpl. unfold Demo.parse, Demo.iso.
  rewrite NilEmpty.isi. now rewrite DecimalZ.of_to.
Qed.

(** Unfolds the monadic operations in the goal as far as the control flow is
    determined. *)
Ltac run :=
  cbv beta iota zeta delta
    [handleSubmit fetchCourses function try_finally try_catch bind when
     ret return_ throw emit get put await toISOString
     setCourses setLoading setSubmitting setMessage setFormData
     preventDefault console_error setTimeout];
  cbn [completion final emitted courses loading submitting message formData
       data error
       fst snd app].

Section Submit.

Variable rt : Runtime.

(** The run of [handleSubmit] that stops at the permission check. *)
Lemma denied (user : option User.t) (s : State) :
  not_faculty user = true ->
  handleSubmit rt user s =
  let m := {| text := "You don't have permission to perform this action";
              type := "error" |} in
  mkResult (Normal tt)
           (mkState (courses s) (loading s) (submitting s) m (formData s))
           [EvPreventDefault; EvSetMessage m].
Proof.
  intros H. destruct user as [u|]; run; [rewrite H|]; run; reflexivity.
Qed.

Lemma validated_order (user : option User.t) (s : State) (u : User.t) (ts te : Z) :
  date_parse rt (date_iso rt ts) = Some ts ->
  date_parse rt (date_iso rt te) = Some te ->
  validated rt user s u ts te <->
  user = Some u /\ User.role u = "faculty" /\
  missing_required (formData s) = false /\
  date_parse rt (start_input (formData s)) = Some ts /\
  date_parse rt (end_input (formData s)) = Some te /\
  (ts < te)%Z.
Proof.
  intros Hts Hte. unfold validated. rewrite Hts, Hte. simpl.
  rewrite Z.leb_gt. tauto.
Qed.

(** Brings the run of a validated submission to the point where the store
    replies. *)
Ltac to_reply V :=
  let Hrole := fresh "Hrole" in
  let Hreq := fresh "Hreq" in
  let Hs := fresh "Hs" in
  let He := fresh "He" in
  let Hord := fresh "Hord" in
  destruct V as (-> & Hrole & Hreq & Hs & He & Hord);
  unfold start_input, end_input in Hs, He;
  run; rewrite (faculty_permitted _ Hrole); run;
  rewrite Hreq; run; rewrite Hs, He; run; rewrite Hord; run.

(** The run in which the store returns at least one row and no error. *)
Lemma accepted (user : option User.t) (s : State) (u : User.t) (ts te : Z)
    (x : Session.t) (xs : list Session.t) :
  validated rt user s u ts te ->
  class_sessions rt (sent rt u s ts te) = Resolved (mkResponse (Some (x :: xs)) None) ->
  handleSubmit rt user s =
  mkResult (Normal tt)
    (mkState (courses s) (loading s) false success_message (reset_form (formData s)))
    (prologue (sent rt u s ts te) ++
     [EvSetMessage success_message;
      EvSetFormData (reset_form (formData s));
      EvSetTimeout (router_push "/dashboard/faculty/classes") 2000;
      EvSetSubmitting false]).
Proof.
  intros V Hreply. unfold sent in Hreply. to_reply V.
  rewrite Hreply. run. reflexivity.
Qed.

(** The run in which the insert fails or returns no rows. *)
Lemma rejected (user : option User.t) (s : State) (u : User.t) (ts te : Z) :
  validated rt user s u ts te ->
  refused (class_sessions rt (sent rt u s ts te)) ->
  handleSubmit rt user s =
  let reply := class_sessions rt (sent rt u s ts te) in
  mkResult (Normal tt)
    (mkState (courses s) (loading s) false
             (failure_message (failure_reason reply)) (formData s))
    (prologue (sent rt u s ts te) ++ failure_log reply ++
     [EvSetMessage (failure_message (failure_reason reply));
      EvSetSubmitting false]).
Proof.
  intros V Hreply. unfold sent in *. to_reply V.
  destruct (class_sessions rt _) as [[d [e|]]|e]; run.
  - reflexivity.
  - destruct Hreply as [C|Hno]; [now elim C|].
    unfold data in Hno. rewrite Hno. run. reflexivity.
  - unfold failure_message, failure_reason.
    destruct (or_else (JsError.message e) "Unknown error"); reflexivity.
Qed.

(** A query appears in the run only for a validated submission, and it is
    the insert of the row built from it. *)
Lemma query_sent (user : option User.t) (s : State) (q : Query) :
  In q (queries (emitted (handleSubmit rt user s))) ->
  exists u ts te, validated rt user s u ts te /\ q = sent rt u s ts te.
Proof.
  unfold validated, sent, start_input, end_input.
  destruct (not_faculty user) eqn:Hperm.
  { rewrite (denied user s Hperm). simpl. tauto. }
  apply not_faculty_false in Hperm. destruct Hperm as (u & -> & Hrole).
  run. rewrite (faculty_permitted _ Hrole). run.
  destruct (missing_required (formData s)) eqn:Hreq; run; [simpl; tauto|].
  destruct (date_parse rt (startDate _ ++ _)) as [ts|] eqn:Hs; run; [|simpl; tauto].
  destruct (date_parse rt (endDate _ ++ _)) as [te|] eqn:He; run; [|simpl; tauto].
  destruct (date_le _ _) eqn:Hord; run; [simpl; tauto|].
  intros Hin. exists u, ts, te. repeat split; auto.
  destruct (class_sessions rt _) as [[d [e|]]|e]; run; simpl in Hin;
    try (destruct Hin as [<-|[]]; reflexivity).
  destruct (no_rows d); run; simpl in Hin; destruct Hin as [<-|[]]; reflexivity.
Qed.

(** C3: without a user, or with a user whose role is not "faculty",
    [handleSubmit] sets the message "You don't have permission to perform this
    action" and returns: no query is sent and the form data is untouched. *)
Theorem handleSubmit_without_permission (user : option User.t) (s : State) :
  not_faculty user = true ->
  let r := handleSubmit rt user s in
  completion r = Normal tt /\
  emitted r = [EvPreventDefault;
               EvSetMessage {| text := "You don't have permission to perform this action";
                               type := "error" |}] /\
  message (final r) = {| text := "You don't have permission to perform this action";
                         type := "error" |} /\
  queries (emitted r) = [] /\
  formData (final r) = formData s /\
  submitting (final r) = submitting s.
Proof.
  intros H. cbv zeta. rewrite (denied user s H). simpl. auto 10.
Qed.

(** C4: for a faculty user, when one of the required fields is the empty
    string, [handleSubmit] sets the message "Please fill in all required
    fields", leaves [submitting] false and sends no insert (no query at
    all). *)
Theorem handleSubmit_missing_required_field (u : User.t) (s : State) :
  User.role u = "faculty" ->
  courseId (formData s) = "" \/ title (formData s) = "" \/
  startDate (formData s) = "" \/ startTime (formData s) = "" \/
  endDate (formData s) = "" \/ endTime (formData s) = "" ->
  let r := handleSubmit rt (Some u) s in
  message (final r) = {| text := "Please fill in all required fields"; type := "error" |} /\
  submitting (final r) = false /\
  inserts (emitted r) = [] /\
  queries (emitted r) = [] /\
  emitted r = [EvPreventDefault; EvSetSubmitting true;
               EvSetMessage {| text := ""; type := "" |};
               EvSetMessage {| text := "Please fill in all required fields"; type := "error" |};
               EvSetSubmitting false; EvSetSubmitting false].
Proof.
  intros Hrole Hmiss. apply missing_required_true_iff in Hmiss.
  run. rewrite (faculty_permitted u Hrole). run. rewrite Hmiss. run.
  simpl. auto 10.
Qed.

(** C1: for a submission that has passed the permission check, with the
    required fields filled and both date-time strings parsed to dates whose
    ISO strings parse back to them, an end that is not after the start makes
    [handleSubmit] set the message "End time must be after start time" and
    send no insert; an insert is sent only if the end is strictly after the
    start. *)
Theorem handleSubmit_end_must_follow_start (u : User.t) (s : State) (ts te : Z) :
  User.role u = "faculty" ->
  courseId (formData s) <> "" /\ title (formData s) <> "" /\
  startDate (formData s) <> "" /\ startTime (formData s) <> "" /\
  endDate (formData s) <> "" /\ endTime (formData s) <> "" ->
  date_parse rt (start_input (formData s)) = Some ts ->
  date_parse rt (end_input (formData s)) = Some te ->
  date_parse rt (date_iso rt ts) = Some ts ->
  date_parse rt (date_iso rt te) = Some te ->
  let r := handleSubmit rt (Some u) s in
  ((te <= ts)%Z ->
     message (final r) =
       {| text := "End time must be after start time"; type := "error" |} /\
     emitted r =
       [EvPreventDefault; EvSetSubmitting true;
        EvSetMessage {| text := ""; type := "" |};
        EvSetMessage {| text := "End time must be after start time"; type := "error" |};
        EvSetSubmitting false; EvSetSubmitting false] /\
     submitting (final r) = false /\
     inserts (emitted r) = [] /\
     queries (emitted r) = []) /\
  (inserts (emitted r) <> [] -> (ts < te)%Z).
Proof.
  unfold start_input, end_input. intros Hrole Hreq Hs He Hts Hte.
  apply missing_required_false_iff in Hreq.
  run. rewrite (faculty_permitted u Hrole). run. rewrite Hreq. run.
  rewrite Hs, He. run. rewrite Hts, Hte. unfold date_le.
  destruct (te <=? ts)%Z eqn:Hle; run.
  - simpl. split; [intros _; auto 10 | intros C; now elim C].
  - apply Z.leb_gt in Hle. split; [lia|]. intros _. exact Hle.
Qed.

Lemma reply_cases (reply : Reply Session.t) :
  (exists x xs, reply = Resolved (mkResponse (Some (x :: xs)) None)) \/
  refused reply.
Proof.
  destruct reply as [[[[|x xs]|] [e|]]|e]; simpl; eauto;
    right; ((left; discriminate) || (right; reflexivity)).
Qed.

(** A validated submission sends its insert and nothing else. *)
Lemma validated_queries (user : option User.t) (s : State) (u : User.t) (ts te : Z) :
  validated rt user s u ts te ->
  queries (emitted (handleSubmit rt user s)) = [sent rt u s ts te].
Proof.
  intros V. destruct (reply_cases (class_sessions rt (sent rt u s ts te)))
    as [(x & xs & Hreply)|Hreply].
  - rewrite (accepted _ _ _ _ _ _ _ V Hreply). reflexivity.
  - rewrite (rejected _ _ _ _ _ V Hreply). cbv zeta. cbn [emitted].
    destruct (class_sessions rt _) as [[d [e|]]|e]; reflexivity.
Qed.

Lemma inserts_queries (es : list Event) (row : ClassData.t) :
  In row (inserts es) ->
  exists q, In q (queries es) /\ verb q = insert_select row.
Proof.
  unfold inserts. rewrite in_flat_map. intros (q & Hq & Hrow).
  exists q. split; [exact Hq|].
  destruct (verb q); simpl in Hrow; [tauto|].
  destruct Hrow as [->|[]]. reflexivity.
Qed.

Lemma or_null_spec (v : string) :
  or_null v = if v =? "" then None else Some v.
Proof.
  unfold or_null, truthy. now destruct (v =? "").
Qed.

(** C2: a submission by a faculty user that passes every validation sends
    exactly one query, the insert into [class_sessions] of one row with
    [course_id], [title], [description] (null when empty), the ISO strings of
    the two entered date-times, [meeting_link] (null when empty),
    [created_by] the user's id and [reminder_sent] false; the row also
    carries [updated_at], the ISO string of the current time.  The two dates
    are such that their ISO strings parse back to them, as the order check
    of the handler is made on the strings. *)
Theorem handleSubmit_single_insert (u : User.t) (s : State) (ts te : Z) :
  User.role u = "faculty" ->
  missing_required (formData s) = false ->
  date_parse rt (start_input (formData s)) = Some ts ->
  date_parse rt (end_input (formData s)) = Some te ->
  date_parse rt (date_iso rt ts) = Some ts ->
  date_parse rt (date_iso rt te) = Some te ->
  (ts < te)%Z ->
  let r := handleSubmit rt (Some u) s in
  exists row,
    queries (emitted r) =
      [{| table := "class_sessions"; verb := insert_select row;
          filters := []; order := None |}] /\
    inserts (emitted r) = [row] /\
    ClassData.course_id row = courseId (formData s) /\
    ClassData.title row = title (formData s) /\
    ClassData.description row =
      (if description (formData s) =? "" then None
       else Some (description (formData s))) /\
    ClassData.start_time row = date_iso rt ts /\
    ClassData.end_time row = date_iso rt te /\
    ClassData.meeting_link row =
      (if meetingLink (formData s) =? "" then None
       else Some (meetingLink (formData s))) /\
    ClassData.created_by row = User.id u /\
    ClassData.reminder_sent row = false /\
    ClassData.updated_at row = date_iso rt (now rt).
Proof.
  intros Hrole Hreq Hs He Hts Hte Hlt.
  assert (V : validated rt (Some u) s u ts te)
    by (apply validated_order; auto 10).
  cbv zeta. unfold inserts. rewrite (validated_queries _ _ _ _ _ V).
  exists (classData rt u (formData s) (date_iso rt ts) (date_iso rt te)).
  simpl. rewrite <- !or_null_spec. auto 12.
Qed.

(** C6: when the insert sent by a submission comes back without error and
    with at least one row, [handleSubmit] sets the message "Class session
    created successfully" and afterwards schedules the navigation to
    /dashboard/faculty/classes; a run schedules a navigation only in that
    case. *)
Theorem handleSubmit_success_then_redirect (user : option User.t) (s : State) :
  let r := handleSubmit rt user s in
  let ok := {| text := "Class session created successfully"; type := "success" |} in
  (forall q x xs,
      In q (queries (emitted r)) ->
      class_sessions rt q = Resolved (mkResponse (Some (x :: xs)) None) ->
      message (final r) = ok /\
      redirects (emitted r) = ["/dashboard/faculty/classes"] /\
      exists before after,
        emitted r = before ++ EvSetMessage ok :: after /\
        redirects before = [] /\
        redirects after = ["/dashboard/faculty/classes"]) /\
  (redirects (emitted r) <> [] ->
   exists q x xs,
     In q (queries (emitted r)) /\
     class_sessions rt q = Resolved (mkResponse (Some (x :: xs)) None)).
Proof.
  cbv zeta. split.
  - intros q x xs Hq Hreply.
    destruct (query_sent _ _ _ Hq) as (u & ts & te & V & ->).
    rewrite (accepted _ _ _ _ _ _ _ V Hreply). cbn [final emitted message].
    repeat split.
    exists (prologue (sent rt u s ts te)). eexists. repeat split.
  - intros Hnav.
    destruct (not_faculty user) eqn:Hperm.
    { rewrite (denied user s Hperm) in Hnav. now elim Hnav. }
    revert Hnav. unfold start_input, end_input.
    apply not_faculty_false in Hperm. destruct Hperm as (u & -> & Hrole).
    run. rewrite (faculty_permitted _ Hrole). run.
    destruct (missing_required (formData s)) eqn:Hreq; run;
      [intros C; now elim C|].
    destruct (date_parse rt (startDate _ ++ _)) as [ts|] eqn:Hs; run;
      [|intros C; now elim C].
    destruct (date_parse rt (endDate _ ++ _)) as [te|] eqn:He; run;
      [|intros C; now elim C].
    destruct (date_le _ _) eqn:Hord; run; [intros C; now elim C|].
    destruct (class_sessions rt _) as [[[[|x xs]|] [e|]]|e] eqn:Hreply; run;
      try (intros C; now elim C).
    intros _. eexists _, x, xs. split; [left; reflexivity | exact Hreply].
Qed.

(** C7: when the insert sent by a submission is rejected, comes back with an
    error or comes back without rows, everything [handleSubmit] does after
    the query, apart from logging to the console, is to set a message
    "Failed to create class session: ..." and to reset [submitting]; the form
    data is unchanged and no navigation is scheduled. *)
Theorem handleSubmit_insert_failure (user : option User.t) (s : State) (q : Query) :
  let r := handleSubmit rt user s in
  In q (queries (emitted r)) ->
  refused (class_sessions rt q) ->
  exists before log reason,
    emitted r =
      before ++ [EvQuery q] ++ log ++
      [EvSetMessage {| text := "Failed to create class session: " ++ reason;
                       type := "error" |};
       EvSetSubmitting false] /\
    queries before = [] /\
    Forall is_console_error log /\
    message (final r) = {| text := "Failed to create class session: " ++ reason;
                           type := "error" |} /\
    submitting (final r) = false /\
    formData (final r) = formData s /\
    courses (final r) = courses s /\
    redirects (emitted r) = [].
Proof.
  cbv zeta. intros Hq Hreply.
  destruct (query_sent _ _ _ Hq) as (u & ts & te & V & ->).
  rewrite (rejected _ _ _ _ _ V Hreply). cbv zeta.
  cbn [final emitted message submitting formData courses].
  exists [EvPreventDefault; EvSetSubmitting true; EvSetMessage {| text := ""; type := "" |}].
  exists (failure_log (class_sessions rt (sent rt u s ts te))).
  exists (failure_reason (class_sessions rt (sent rt u s ts te))).
  repeat split.
  - destruct (class_sessions rt _) as [[d [e|]]|e]; simpl; repeat constructor.
  - destruct (class_sessions rt _) as [[d [e|]]|e]; reflexivity.
Qed.

(** C8: after a submission whose insert succeeds, every field of the form is
    the empty string except [courseId], which keeps the submitted value. *)
Theorem handleSubmit_success_keeps_course
    (user : option User.t) (s : State) (q : Query)
    (x : Session.t) (xs : list Session.t) :
  let r := handleSubmit rt user s in
  In q (queries (emitted r)) ->
  class_sessions rt q = Resolved (mkResponse (Some (x :: xs)) None) ->
  formData (final r) =
    {| courseId := courseId (formData s);
       title := ""; description := ""; startDate := ""; startTime := "";
       endDate := ""; endTime := ""; meetingLink := "" |}.
Proof.
  cbv zeta. intros Hq Hreply.
  destruct (query_sent _ _ _ Hq) as (u & ts & te & V & ->).
  rewrite (accepted _ _ _ _ _ _ _ V Hreply). reflexivity.
Qed.

(** C9: in every row that [handleSubmit] inserts, [description] and
    [meeting_link] are null when the form field is empty, and neither is ever
    the empty string. *)
Theorem inserted_optional_fields (user : option User.t) (s : State) (row : ClassData.t) :
  In row (inserts (emitted (handleSubmit rt user s))) ->
  (description (formData s) = "" -> ClassData.description row = None) /\
  (meetingLink (formData s) = "" -> ClassData.meeting_link row = None) /\
  ClassData.description row <> Some "" /\
  ClassData.meeting_link row <> Some "".
Proof.
  intros Hrow. apply inserts_queries in Hrow. destruct Hrow as (q & Hq & Hverb).
  destruct (query_sent _ _ _ Hq) as (u & ts & te & _ & ->).
  injection Hverb as <-. simpl. rewrite !or_null_spec.
  repeat split.
  - now intros ->.
  - now intros ->.
  - destruct (description (formData s) =? "") eqn:E; [discriminate|].
    intros [= H]. rewrite H in E. discriminate.
  - destruct (meetingLink (formData s) =? "") eqn:E; [discriminate|].
    intros [= H]. rewrite H in E. discriminate.
Qed.

End Submit.

Section Fetch.

Variable rt : Runtime.

(** The form is rendered, and so can be submitted, only for a user who
    passes the permission check of [handleSubmit]. *)
Lemma CreateClass_form_faculty (user : option User.t) (s : State)
    (banner : option Message) (disabled : bool) :
  CreateClass user s = Form banner disabled -> not_faculty user = false.
Proof.
  unfold CreateClass.
  replace (role_is_not_faculty user) with (not_faculty user) by reflexivity.
  destruct (not_faculty user); [discriminate | reflexivity].
Qed.

(** [fetchCourses] does nothing for a user who is not faculty. *)
Lemma fetchCourses_not_faculty (user : option User.t) (s : State) :
  not_faculty user = true ->
  fetchCourses rt user s = mkResult (Normal tt) s [].
Proof.
  intros H. destruct user as [u|]; run; [rewrite H|]; reflexivity.
Qed.


(** C10: for a faculty user whose assignments query comes back as an empty
    list, [fetchCourses] sets the message "You are not assigned to any
    courses. Please contact an administrator.", sends no second query, leaves
    [courses] as it was and ends the loading state; with [courses] empty the
    rendered submit button is disabled. *)
Theorem fetchCourses_no_assignments (u : User.t) (s : State) :
  User.role u = "faculty" ->
  teaching_assignments rt (assignmentsQuery (User.id u)) =
    Resolved (mkResponse (Some []) None) ->
  let r := fetchCourses rt (Some u) s in
  let notice :=
    {| text := "You are not assigned to any courses. Please contact an administrator.";
       type := "error" |} in
  message (final r) = notice /\
  queries (emitted r) = [assignmentsQuery (User.id u)] /\
  courses (final r) = courses s /\
  loading (final r) = false /\
  (courses s = [] ->
   courses (final r) = [] /\
   CreateClass (Some u) (final r) = Form (Some notice) true).
Proof.
  intros Hrole Hreply. cbv zeta.
  run. rewrite (faculty_permitted _ Hrole). run. rewrite Hreply. run.
  do 4 (split; [reflexivity|]).
  intros Hempty. split; [exact Hempty|].
  unfold CreateClass. cbn [role_is_not_faculty].
  rewrite Hrole. cbn. rewrite Hempty. rewrite orb_true_r. reflexivity.
Qed.

End Fetch.

(** * The theorems at work on the test double *)

Section Witnesses.

(** A student submits the filled form. *)
Lemma handleSubmit_without_permission_witness :
  emitted (handleSubmit Demo.rt (Some Demo.bob) (Demo.filled "09:00" "10:00")) =
  [EvPreventDefault;
   EvSetMessage {| text := "You don't have permission to perform this action";
                   type := "error" |}].
Proof.
  apply (handleSubmit_without_permission Demo.rt (Some Demo.bob)
           (Demo.filled "09:00" "10:00") eq_refl).
Defined.

(** A faculty user submits the empty form. *)
Lemma handleSubmit_missing_required_field_witness :
  message (final (handleSubmit Demo.rt (Some Demo.alice) initial)) =
  {| text := "Please fill in all required fields"; type := "error" |}.
Proof.
  apply (handleSubmit_missing_required_field Demo.rt Demo.alice initial eq_refl).
  left. reflexivity.
Defined.

(** A faculty user schedules a class from 10:00 to 09:00. *)
Lemma handleSubmit_end_must_follow_start_witness :
  message (final (handleSubmit Demo.rt (Some Demo.alice) (Demo.filled "10:00" "09:00"))) =
  {| text := "End time must be after start time"; type := "error" |}.
Proof.
  destruct (handleSubmit_end_must_follow_start Demo.rt Demo.alice
              (Demo.filled "10:00" "09:00") Demo.ten Demo.nine) as [H _];
    [reflexivity | repeat split; discriminate | reflexivity | reflexivity
     | apply Demo_parses_back | apply Demo_parses_back |].
  destruct H as [H _]; [discriminate | exact H].
Defined.

(** A faculty user schedules a class from 09:00 to 10:00. *)
Lemma handleSubmit_single_insert_witness :
  exists row,
    inserts (emitted (handleSubmit Demo.rt (Some Demo.alice) (Demo.filled "09:00" "10:00")))
    = [row] /\
    ClassData.start_time row = "1740819600000" /\
    ClassData.end_time row = "1740823200000" /\
    ClassData.description row = None.
Proof.
  destruct (handleSubmit_single_insert Demo.rt Demo.alice
              (Demo.filled "09:00" "10:00") Demo.nine Demo.ten
              eq_refl eq_refl eq_refl eq_refl
              (Demo_parses_back Demo.nine) (Demo_parses_back Demo.ten) eq_refl)
    as (row & _ & Hrow & _ & _ & Hd & Hs & He & _).
  exists row. auto.
Defined.

(** The store accepts that class. *)
Lemma handleSubmit_success_then_redirect_witness :
  redirects (emitted (handleSubmit Demo.rt (Some Demo.alice) (Demo.filled "09:00" "10:00"))) =
  ["/dashboard/faculty/classes"].
Proof.
  destruct (handleSubmit_success_then_redirect Demo.rt (Some Demo.alice)
              (Demo.filled "09:00" "10:00")) as [H _].
  eapply H; [left; reflexivity | reflexivity].
Defined.

(** The store refuses that class. *)
Lemma handleSubmit_insert_failure_witness :
  exists before log reason,
    emitted (handleSubmit Demo.refusing (Some Demo.alice) (Demo.filled "09:00" "10:00")) =
    before ++
    [EvQuery (sent Demo.refusing Demo.alice (Demo.filled "09:00" "10:00") Demo.nine Demo.ten)] ++
    log ++
    [EvSetMessage {| text := "Failed to create class session: " ++ reason;
                     type := "error" |};
     EvSetSubmitting false].
Proof.
  destruct (handleSubmit_insert_failure Demo.refusing (Some Demo.alice)
              (Demo.filled "09:00" "10:00")
              (sent Demo.refusing Demo.alice (Demo.filled "09:00" "10:00") Demo.nine Demo.ten))
    as (before & log & reason & H & _).
  - left. reflexivity.
  - left. discriminate.
  - exists before, log, reason. exact H.
Defined.

(** The form after the accepted class. *)
Lemma handleSubmit_success_keeps_course_witness :
  formData (final (handleSubmit Demo.rt (Some Demo.alice) (Demo.filled "09:00" "10:00"))) =
  {| courseId := "c1"; title := ""; description := ""; startDate := "";
     startTime := ""; endDate := ""; endTime := ""; meetingLink := "" |}.
Proof.
  eapply (handleSubmit_success_keeps_course Demo.rt (Some Demo.alice)
            (Demo.filled "09:00" "10:00")); [left; reflexivity | reflexivity].
Defined.

(** The description of the accepted class was left empty. *)
Lemma inserted_optional_fields_witness :
  ClassData.description
    (classData Demo.rt Demo.alice (Demo.form "09:00" "10:00")
               "1740819600000" "1740823200000") = None.
Proof.
  eapply (inserted_optional_fields Demo.rt (Some Demo.alice)
            (Demo.filled "09:00" "10:00")); [left; reflexivity | reflexivity].
Defined.


(** The page loads for a faculty user without assignments. *)
Lemma fetchCourses_no_assignments_witness :
  CreateClass (Some Demo.alice)
    (final (fetchCourses Demo.unassigned (Some Demo.alice) initial)) =
  Form (Some {| text := "You are not assigned to any courses. Please contact an administrator.";
                type := "error" |})
       true.
Proof.
  apply (fetchCourses_no_assignments Demo.unassigned Demo.alice initial
           eq_refl eq_refl).
  reflexivity.
Defined.

End Witnesses.

(** * Further properties of [handleSubmit] *)

Section SubmitPaths.

Variable rt : Runtime.

(** Splits a goal about [handleSubmit rt user s] into the paths of the
    handler, each with the run computed. *)
Ltac submit_paths user s :=
  let Hperm := fresh "Hperm" in
  destruct (not_faculty user) eqn:Hperm;
  [ rewrite (denied rt user s Hperm); cbv zeta
  | let u := fresh "u" in
    let Hrole := fresh "Hrole" in
    apply not_faculty_false in Hperm; destruct Hperm as (u & -> & Hrole);
    unfold start_input, end_input;
    run; rewrite (faculty_permitted _ Hrole); run;
    let Hreq := fresh "Hreq" in
    destruct (missing_required (formData s)) eqn:Hreq; run;
    [ | let ts := fresh "ts" in
        let Hs := fresh "Hs" in
        destruct (date_parse rt (startDate _ ++ _)) as [ts|] eqn:Hs; run;
        [ let te := fresh "te" in
          let He := fresh "He" in
          destruct (date_parse rt (endDate _ ++ _)) as [te|] eqn:He; run;
          [ let Hord := fresh "Hord" in
            destruct (date_le _ _) eqn:Hord; run;
            [ | let Hreply := fresh "Hreply" in
                destruct (class_sessions rt _) as [[[[|?x ?xs]|] [?e|]]|?e]
                  eqn:Hreply; run ]
          | ]
        | ] ] ].

(** X1: on entering the date [try] block with an input the runtime cannot parse,
    [handleSubmit] sets the message "Invalid date or time format", leaves
    [submitting] false, keeps the form data and sends no query. *)
Theorem handleSubmit_invalid_date (u : User.t) (s : State) :
  User.role u = "faculty" ->
  missing_required (formData s) = false ->
  date_parse rt (start_input (formData s)) = None \/
  date_parse rt (end_input (formData s)) = None ->
  let r := handleSubmit rt (Some u) s in
  emitted r =
    [EvPreventDefault; EvSetSubmitting true;
     EvSetMessage {| text := ""; type := "" |};
     EvSetMessage {| text := "Invalid date or time format"; type := "error" |};
     EvSetSubmitting false; EvSetSubmitting false] /\
  message (final r) = {| text := "Invalid date or time format"; type := "error" |} /\
  submitting (final r) = false /\
  formData (final r) = formData s /\
  queries (emitted r) = [].
Proof.
  unfold start_input, end_input. intros Hrole Hreq Hbad. cbv zeta.
  run. rewrite (faculty_permitted _ Hrole). run. rewrite Hreq. run.
  destruct (date_parse rt (startDate _ ++ _)) as [ts|] eqn:Hs; run.
  - destruct Hbad as [C|He]; [discriminate|]. rewrite He. run.
    repeat split.
  - repeat split.
Qed.

(** X2: [handleSubmit] never throws to its caller and never writes [courses] or
    [loading]; for a user who passes the permission check it always ends
    with [submitting] false. *)
Theorem handleSubmit_settles (user : option User.t) (s : State) :
  let r := handleSubmit rt user s in
  completion r = Normal tt /\
  courses (final r) = courses s /\
  loading (final r) = loading s /\
  (not_faculty user = false -> submitting (final r) = false) /\
  (not_faculty user = true -> submitting (final r) = submitting s).
Proof.
  cbv zeta. submit_paths user s; cbn [completion final courses loading submitting];
    repeat split; intros; congruence.
Qed.


(** X4: [handleSubmit] rewrites the form data only when the insert comes back
    with a row and no error; on every other path the user's input stays. *)
Theorem handleSubmit_keeps_input_unless_success (user : option User.t) (s : State) :
  let r := handleSubmit rt user s in
  formData (final r) = formData s \/
  exists q x xs,
    In q (queries (emitted r)) /\
    class_sessions rt q = Resolved (mkResponse (Some (x :: xs)) None).
Proof.
  cbv zeta. submit_paths user s; cbn [final formData]; try (left; reflexivity).
  right. eexists _, _, _. split; [left; reflexivity | exact Hreply].
Qed.

(** X5: every run of [handleSubmit] ends with a non-empty message; its type is
    "success" exactly when the navigation has been scheduled and "error"
    otherwise. *)
Theorem handleSubmit_always_reports (user : option User.t) (s : State) :
  let r := handleSubmit rt user s in
  text (message (final r)) <> "" /\
  (type (message (final r)) = "success" /\
   redirects (emitted r) = ["/dashboard/faculty/classes"] \/
   type (message (final r)) = "error" /\
   redirects (emitted r) = []).
Proof.
  cbv zeta. submit_paths user s; cbn [final message text type];
    (split; [discriminate|]); simpl; auto.
Qed.

(** X6: submitting again right after a success, without typing anything, is
    stopped by the required-field check: no second row is inserted, whoever
    the user and whatever the store. *)
Theorem handleSubmit_twice_inserts_once
    (rt' : Runtime) (user user' : option User.t) (s : State) (q : Query)
    (x : Session.t) (xs : list Session.t) :
  let r := handleSubmit rt user s in
  In q (queries (emitted r)) ->
  class_sessions rt q = Resolved (mkResponse (Some (x :: xs)) None) ->
  let r' := handleSubmit rt' user' (final r) in
  queries (emitted r') = [] /\
  formData (final r') = formData (final r) /\
  (not_faculty user' = false ->
   message (final r') =
     {| text := "Please fill in all required fields"; type := "error" |}).
Proof.
  cbv zeta. intros Hq Hreply.
  destruct (query_sent rt _ _ _ Hq) as (u & ts & te & V & ->).
  rewrite (accepted rt _ _ _ _ _ _ _ V Hreply). cbn [final].
  destruct (not_faculty user') eqn:Hperm.
  - rewrite (denied rt' user' _ Hperm). cbv zeta. cbn [final emitted formData].
    repeat split. discriminate.
  - apply not_faculty_false in Hperm. destruct Hperm as (u' & -> & Hrole).
    run. rewrite (faculty_permitted _ Hrole). run.
    replace (missing_required (reset_form (formData s))) with true.
    + run. repeat split.
    + symmetry. apply missing_required_true_iff. right. left. reflexivity.
Qed.

(** X7: submitting again after a failed insert, without typing anything, on
    a runtime that parses and prints dates alike but has its own clock and
    store, sends one query: the insert of the same row, except for
    [updated_at], which is the ISO string of the new current time. *)
Theorem handleSubmit_retry
    (rt' : Runtime) (user : option User.t) (s : State) (q : Query) :
  (forall str, date_parse rt' str = date_parse rt str) ->
  (forall t, date_iso rt' t = date_iso rt t) ->
  let r := handleSubmit rt user s in
  In q (queries (emitted r)) ->
  refused (class_sessions rt q) ->
  exists row row',
    q = {| table := "class_sessions"; verb := insert_select row;
           filters := []; order := None |} /\
    queries (emitted (handleSubmit rt' user (final r))) =
      [{| table := "class_sessions"; verb := insert_select row';
          filters := []; order := None |}] /\
    ClassData.course_id row' = ClassData.course_id row /\
    ClassData.title row' = ClassData.title row /\
    ClassData.description row' = ClassData.description row /\
    ClassData.start_time row' = ClassData.start_time row /\
    ClassData.end_time row' = ClassData.end_time row /\
    ClassData.meeting_link row' = ClassData.meeting_link row /\
    ClassData.created_by row' = ClassData.created_by row /\
    ClassData.reminder_sent row' = ClassData.reminder_sent row /\
    ClassData.updated_at row = date_iso rt (now rt) /\
    ClassData.updated_at row' = date_iso rt' (now rt').
Proof.
  cbv zeta. intros Hparse Hiso Hq Hreply.
  destruct (query_sent rt _ _ _ Hq) as (u & ts & te & V & ->).
  rewrite (rejected rt _ _ _ _ _ V Hreply). cbv zeta. cbn [final].
  set (s' := mkState _ _ _ _ _).
  assert (V' : validated rt' user s' u ts te).
  { destruct V as (Hu & Hrole & Hreq & Hs & He & Hord).
    unfold validated. rewrite !Hparse, !Hiso. subst s'. cbn [formData].
    auto 10. }
  rewrite (validated_queries rt' _ _ _ _ _ V').
  exists (classData rt u (formData s) (date_iso rt ts) (date_iso rt te)).
  exists (classData rt' u (formData s) (date_iso rt' ts) (date_iso rt' te)).
  subst s'. unfold sent, insertQuery. cbn [formData classData ClassData.course_id
    ClassData.title ClassData.description ClassData.start_time ClassData.end_time
    ClassData.meeting_link ClassData.created_by ClassData.reminder_sent
    ClassData.updated_at].
  rewrite !Hiso. repeat split.
Qed.

(** X8: every row [handleSubmit] sends is well formed: [course_id] and [title]
    are not empty, [created_by] is the submitting faculty user,
    [reminder_sent] is false, the two time stamps are the ISO strings of the
    dates the inputs parse to and pass the order check of the handler; where
    the two ISO strings parse back to those dates, the start is strictly
    before the end. *)
Theorem inserted_rows_well_formed
    (user : option User.t) (s : State) (row : ClassData.t) :
  In row (inserts (emitted (handleSubmit rt user s))) ->
  ClassData.course_id row <> "" /\
  ClassData.title row <> "" /\
  ClassData.reminder_sent row = false /\
  (exists u, user = Some u /\ User.role u = "faculty" /\
             ClassData.created_by row = User.id u) /\
  date_le (date_parse rt (ClassData.end_time row))
          (date_parse rt (ClassData.start_time row)) = false /\
  exists ts te,
    date_parse rt (start_input (formData s)) = Some ts /\
    date_parse rt (end_input (formData s)) = Some te /\
    ClassData.start_time row = date_iso rt ts /\
    ClassData.end_time row = date_iso rt te /\
    (date_parse rt (ClassData.start_time row) = Some ts ->
     date_parse rt (ClassData.end_time row) = Some te ->
     (ts < te)%Z).
Proof.
  intros Hrow.
  apply inserts_queries in Hrow. destruct Hrow as (q & Hq & Hverb).
  destruct (query_sent rt _ _ _ Hq) as (u & ts & te & V & ->).
  injection Hverb as <-.
  destruct V as (-> & Hrole & Hreq & Hs & He & Hord).
  apply missing_required_false_iff in Hreq.
  destruct Hreq as (Hc & Ht & _).
  cbn [classData ClassData.course_id ClassData.title ClassData.reminder_sent
       ClassData.created_by ClassData.start_time ClassData.end_time].
  repeat split; auto.
  - exists u. auto.
  - exists ts, te. repeat split; auto.
    intros Hts Hte. rewrite Hts, Hte in Hord. simpl in Hord.
    now apply Z.leb_gt in Hord.
Qed.

(** What a run of [handleSubmit] can do to the courses and the form data. *)
Lemma handleSubmit_state (user : option User.t) (s : State) :
  courses (final (handleSubmit rt user s)) = courses s /\
  (formData (final (handleSubmit rt user s)) = formData s \/
   formData (final (handleSubmit rt user s)) = reset_form (formData s)).
Proof.
  submit_paths user s; cbn [final courses formData]; auto.
Qed.

(** What a run of [handleSubmit] can do to [submitting]. *)
Lemma handleSubmit_submitting (user : option User.t) (s : State) :
  submitting (final (handleSubmit rt user s)) = submitting s \/
  submitting (final (handleSubmit rt user s)) = false.
Proof.
  submit_paths user s; cbn [final submitting]; auto.
Qed.

(** The final state of a run is the initial one with the setter calls of the
    run applied in order. *)
Lemma handleSubmit_replay (user : option User.t) (s : State) :
  replay (emitted (handleSubmit rt user s)) s = final (handleSubmit rt user s).
Proof.
  submit_paths user s; reflexivity.
Qed.

(** X20: while the insert of a submission is pending, [submitting] is true.
    The query is sent after exactly three events, which leave the state as it
    was at the submission except for [submitting], now true, and the message,
    now empty; no other query follows; and with the form on display the
    submit button is disabled in that state. *)
Theorem handleSubmit_busy_while_pending
    (user : option User.t) (s : State) (q : Query) :
  let r := handleSubmit rt user s in
  In q (queries (emitted r)) ->
  let before :=
    [EvPreventDefault; EvSetSubmitting true;
     EvSetMessage {| text := ""; type := "" |}] in
  exists after,
    emitted r = before ++ EvQuery q :: after /\
    queries after = [] /\
    replay before s =
      mkState (courses s) (loading s) true {| text := ""; type := "" |}
              (formData s) /\
    replay after (replay before s) = final r /\
    (loading s = false -> CreateClass user (replay before s) = Form None true).
Proof.
  cbv zeta. intros Hq.
  destruct (query_sent rt _ _ _ Hq) as (u & ts & te & V & ->).
  assert (Hview : loading s = false ->
            CreateClass user
              (mkState (courses s) (loading s) true {| text := ""; type := "" |}
                       (formData s)) = Form None true).
  { destruct V as (-> & Hrole & _). intros Hload.
    unfold CreateClass. cbn [role_is_not_faculty loading]. rewrite Hrole, Hload.
    reflexivity. }
  destruct (reply_cases (class_sessions rt (sent rt u s ts te)))
    as [(x & xs & Hreply)|Hreply].
  - rewrite (accepted rt _ _ _ _ _ _ _ V Hreply). cbn [emitted final].
    eexists. split; [reflexivity|]. repeat split. exact Hview.
  - rewrite (rejected rt _ _ _ _ _ V Hreply). cbv zeta. cbn [emitted final].
    eexists. split; [reflexivity|].
    split; [|split; [reflexivity|split; [|exact Hview]]];
      destruct (class_sessions rt _) as [[d [e|]]|e]; reflexivity.
Qed.

End SubmitPaths.

(** * Further properties of [fetchCourses] *)

Section FetchPaths.

Variable rt : Runtime.

(** Splits a goal about [fetchCourses rt (Some u) s], [u] being faculty, into
    the paths of the routine, each with the run computed. *)
Ltac fetch_paths Hrole :=
  run; rewrite (faculty_permitted _ Hrole); run;
  let H1 := fresh "Hfirst" in
  destruct (teaching_assignments rt _) as [[[[|?a ?l]|] [?e|]]|?e] eqn:H1; run;
  try (let H2 := fresh "Hsecond" in
       destruct (courses_table rt _) as [[[[|?c0 ?cs]|] [?e|]]|?e] eqn:H2; run).

(** X9: when the first read is rejected or comes back with an error,
    [fetchCourses] logs it, sets the message "Failed to load courses. Please
    refresh the page.", sends no second query, leaves courses and form data
    alone and ends the loading state. *)
Theorem fetchCourses_first_read_fails (u : User.t) (s : State) (e : JsError.t) :
  User.role u = "faculty" ->
  teaching_assignments rt (assignmentsQuery (User.id u)) = Rejected e \/
  (exists d, teaching_assignments rt (assignmentsQuery (User.id u)) =
             Resolved (mkResponse d (Some e))) ->
  let r := fetchCourses rt (Some u) s in
  let failure :=
    {| text := "Failed to load courses. Please refresh the page."; type := "error" |} in
  emitted r =
    [EvSetLoading true; EvQuery (assignmentsQuery (User.id u));
     EvConsoleError "Error fetching courses:" e;
     EvSetMessage failure; EvSetLoading false] /\
  final r = mkState (courses s) false (submitting s) failure (formData s).
Proof.
  intros Hrole Hreply. cbv zeta.
  run. rewrite (faculty_permitted _ Hrole). run.
  destruct Hreply as [-> | (d & ->)]; run; split; reflexivity.
Qed.

(** X10: when the assignments are there but the second read is rejected or comes
    back with an error, the outcome is the same failure message, after both
    queries. *)
Theorem fetchCourses_second_read_fails
    (u : User.t) (s : State) (a : Assignment.t) (l : list Assignment.t)
    (e : JsError.t) :
  User.role u = "faculty" ->
  teaching_assignments rt (assignmentsQuery (User.id u)) =
    Resolved (mkResponse (Some (a :: l)) None) ->
  let second := coursesQuery (map Assignment.course_id (a :: l)) in
  courses_table rt second = Rejected e \/
  (exists d, courses_table rt second = Resolved (mkResponse d (Some e))) ->
  let r := fetchCourses rt (Some u) s in
  let failure :=
    {| text := "Failed to load courses. Please refresh the page."; type := "error" |} in
  emitted r =
    [EvSetLoading true; EvQuery (assignmentsQuery (User.id u)); EvQuery second;
     EvConsoleError "Error fetching courses:" e;
     EvSetMessage failure; EvSetLoading false] /\
  final r = mkState (courses s) false (submitting s) failure (formData s).
Proof.
  intros Hrole Hfirst second Hreply. subst second. cbv zeta.
  run. rewrite (faculty_permitted _ Hrole). run. rewrite Hfirst. run.
  destruct Hreply as [-> | (d & ->)]; run; split; reflexivity.
Qed.

(** X11: when the second read succeeds without rows (null or an empty list),
    [fetchCourses] sets the message "No courses found. Please contact an
    administrator." and leaves courses and form data alone. *)
Theorem fetchCourses_no_courses_found
    (u : User.t) (s : State) (a : Assignment.t) (l : list Assignment.t)
    (d : option (list Course.t)) :
  User.role u = "faculty" ->
  teaching_assignments rt (assignmentsQuery (User.id u)) =
    Resolved (mkResponse (Some (a :: l)) None) ->
  let second := coursesQuery (map Assignment.course_id (a :: l)) in
  courses_table rt second = Resolved (mkResponse d None) ->
  no_rows d = true ->
  let r := fetchCourses rt (Some u) s in
  let notice :=
    {| text := "No courses found. Please contact an administrator."; type := "error" |} in
  emitted r =
    [EvSetLoading true; EvQuery (assignmentsQuery (User.id u)); EvQuery second;
     EvSetMessage notice; EvSetLoading false] /\
  final r = mkState (courses s) false (submitting s) notice (formData s) /\
  (courses s = [] -> CreateClass (Some u) (final r) = Form (Some notice) true).
Proof.
  intros Hrole Hfirst second Hreply Hno. subst second. cbv zeta.
  run. rewrite (faculty_permitted _ Hrole). run. rewrite Hfirst. run.
  rewrite Hreply. run.
  destruct d as [[|c0 cs]|]; try discriminate; run;
    (split; [reflexivity|]; split; [reflexivity|]);
    intros Hempty; unfold CreateClass; cbn [role_is_not_faculty];
    rewrite Hrole; cbn; rewrite Hempty; rewrite orb_true_r; reflexivity.
Qed.

(** X12: when both reads succeed, [fetchCourses] stores the returned courses,
    selects the first of them in the form, keeps every other field and the
    message, and ends the loading state; the form is then shown with the
    submit button enabled unless a submission is under way. *)
Theorem fetchCourses_loads
    (u : User.t) (s : State) (a : Assignment.t) (l : list Assignment.t)
    (c0 : Course.t) (cs : list Course.t) :
  User.role u = "faculty" ->
  teaching_assignments rt (assignmentsQuery (User.id u)) =
    Resolved (mkResponse (Some (a :: l)) None) ->
  let second := coursesQuery (map Assignment.course_id (a :: l)) in
  courses_table rt second = Resolved (mkResponse (Some (c0 :: cs)) None) ->
  let r := fetchCourses rt (Some u) s in
  emitted r =
    [EvSetLoading true; EvQuery (assignmentsQuery (User.id u)); EvQuery second;
     EvSetCourses (c0 :: cs);
     EvSetFormData (assign "courseId" (Course.id c0) (formData s));
     EvSetLoading false] /\
  final r =
    mkState (c0 :: cs) false (submitting s) (message s)
            (assign "courseId" (Course.id c0) (formData s)) /\
  value_of "courseId" (controls (formData (final r))) = Some (Course.id c0) /\
  exists banner, CreateClass (Some u) (final r) = Form banner (submitting s).
Proof.
  intros Hrole Hfirst second Hreply. subst second. cbv zeta.
  run. rewrite (faculty_permitted _ Hrole). run. rewrite Hfirst. run.
  rewrite Hreply. run.
  repeat split. eexists. unfold CreateClass. cbn [role_is_not_faculty].
  rewrite Hrole. cbn. rewrite orb_false_r. reflexivity.
Qed.

(** X13: [fetchCourses] never throws to its caller, never writes [submitting],
    sends at most two queries, all of them selects, and for a faculty user
    always ends the loading state; for anyone else it does nothing at all. *)
Theorem fetchCourses_settles (user : option User.t) (s : State) :
  let r := fetchCourses rt user s in
  completion r = Normal tt /\
  submitting (final r) = submitting s /\
  (length (queries (emitted r)) <= 2)%nat /\
  inserts (emitted r) = [] /\
  (not_faculty user = false -> loading (final r) = false) /\
  (not_faculty user = true -> final r = s /\ emitted r = []).
Proof.
  cbv zeta. destruct (not_faculty user) eqn:Hperm.
  - rewrite (fetchCourses_not_faculty rt user s Hperm). simpl.
    repeat split; auto; discriminate.
  - apply not_faculty_false in Hperm. destruct Hperm as (u & -> & Hrole).
    fetch_paths Hrole; simpl; repeat split; auto; try lia; discriminate.
Qed.

(** What a run of [fetchCourses] can do to the courses and the form data. *)
Lemma fetchCourses_state (user : option User.t) (s : State) :
  let r := fetchCourses rt user s in
  (courses (final r) = courses s /\ formData (final r) = formData s) \/
  exists c0 cs,
    courses (final r) = c0 :: cs /\
    formData (final r) = assign "courseId" (Course.id c0) (formData s).
Proof.
  cbv zeta. destruct (not_faculty user) eqn:Hperm.
  - rewrite (fetchCourses_not_faculty rt user s Hperm). left. split; reflexivity.
  - apply not_faculty_false in Hperm. destruct Hperm as (u & -> & Hrole).
    fetch_paths Hrole; cbn [final courses formData];
      try (left; split; reflexivity).
    right. eexists _, _. split; reflexivity.
Qed.

(** X14: loading the page from a state without courses has two outcomes for a
    faculty user: either courses are there and the first of them is selected,
    a value the course select offers, or there are still none, an error
    message is shown and the submit button is disabled. *)
Theorem fetchCourses_outcome (u : User.t) (s : State) :
  User.role u = "faculty" ->
  courses s = [] ->
  let r := fetchCourses rt (Some u) s in
  (exists c0 cs,
     courses (final r) = c0 :: cs /\
     courseId (formData (final r)) = Course.id c0 /\
     In (courseId (formData (final r)))
        (map fst (course_options (courses (final r))))) \/
  (courses (final r) = [] /\
   type (message (final r)) = "error" /\
   CreateClass (Some u) (final r) = Form (Some (message (final r))) true).
Proof.
  intros Hrole Hempty. cbv zeta.
  fetch_paths Hrole; cbn [final courses formData message type];
    try (right; split; [exact Hempty|]; split; [reflexivity|];
         unfold CreateClass; cbn [role_is_not_faculty];
         rewrite Hrole; cbn; rewrite Hempty; rewrite orb_true_r; reflexivity).
  left. exists c0, cs. cbn. auto.
Qed.

Lemma fetchCourses_submitting (user : option User.t) (s : State) :
  submitting (final (fetchCourses rt user s)) = submitting s.
Proof.
  destruct (not_faculty user) eqn:Hperm.
  - now rewrite (fetchCourses_not_faculty rt user s Hperm).
  - apply not_faculty_false in Hperm. destruct Hperm as (u & -> & Hrole).
    fetch_paths Hrole; reflexivity.
Qed.

End FetchPaths.

(** * Editing the form *)

Lemma control_names (f : FormData) :
  map fst (controls f) =
  ["courseId"; "title"; "description"; "startDate"; "startTime"; "endDate";
   "endTime"; "meetingLink"].
Proof. reflexivity. Qed.

(** Case analysis on whether [n] is one of the eight field names. *)
Ltac field_cases n :=
  destruct (String.eqb_spec n "courseId");
  [ | destruct (String.eqb_spec n "title");
  [ | destruct (String.eqb_spec n "description");
  [ | destruct (String.eqb_spec n "startDate");
  [ | destruct (String.eqb_spec n "startTime");
  [ | destruct (String.eqb_spec n "endDate");
  [ | destruct (String.eqb_spec n "endTime");
  [ | destruct (String.eqb_spec n "meetingLink") ] ] ] ] ] ] ];
  try subst n.

Lemma assign_same (name value : string) (f : FormData) :
  In name (map fst (controls f)) ->
  value_of name (controls (assign name value f)) = Some value.
Proof.
  rewrite control_names. simpl.
  intros [<-|[<-|[<-|[<-|[<-|[<-|[<-|[<-|[]]]]]]]]]; reflexivity.
Qed.

Lemma assign_other (name value other : string) (f : FormData) :
  other <> name ->
  value_of other (controls (assign name value f)) = value_of other (controls f).
Proof.
  intros Hneq. unfold assign. field_cases name;
    cbn [value_of controls courseId title description startDate startTime
         endDate endTime meetingLink];
    try reflexivity;
    match goal with
    | H : other <> ?c |- _ =>
        destruct (String.eqb_spec c other); [congruence | reflexivity]
    end.
Qed.

Lemma assign_commute (n1 v1 n2 v2 : string) (f : FormData) :
  n1 <> n2 ->
  assign n1 v1 (assign n2 v2 f) = assign n2 v2 (assign n1 v1 f).
Proof.
  intros Hneq. unfold assign.
  field_cases n1; field_cases n2; try reflexivity; congruence.
Qed.

Lemma handleChange_run (name value : string) (s : State) :
  handleChange name value s =
  mkResult (Normal tt)
    (mkState (courses s) (loading s) (submitting s) (message s)
             (assign name value (formData s)))
    [EvSetFormData (assign name value (formData s))].
Proof. reflexivity. Qed.

(** X15: [handleChange] puts the reported value into the control that reported
    it, and changes nothing else: every other control keeps its value, and
    courses, loading, submitting and message are as before. *)
Theorem handleChange_sets_control (name value : string) (s : State) :
  In name (map fst (controls (formData s))) ->
  let r := handleChange name value s in
  completion r = Normal tt /\
  queries (emitted r) = [] /\
  value_of name (controls (formData (final r))) = Some value /\
  (forall other, other <> name ->
     value_of other (controls (formData (final r))) =
     value_of other (controls (formData s))) /\
  courses (final r) = courses s /\
  loading (final r) = loading s /\
  submitting (final r) = submitting s /\
  message (final r) = message s.
Proof.
  intros Hin. cbv zeta. rewrite handleChange_run. cbn [completion final emitted
    courses loading submitting message formData].
  repeat split.
  - now apply assign_same.
  - intros other Hneq. now apply assign_other.
Qed.

(** X16: edits of two different controls can be made in either order. *)
Theorem handleChange_commute (n1 v1 n2 v2 : string) (s : State) :
  n1 <> n2 ->
  final (handleChange n1 v1 (final (handleChange n2 v2 s))) =
  final (handleChange n2 v2 (final (handleChange n1 v1 s))).
Proof.
  intros Hneq. rewrite !handleChange_run. cbn [final courses loading submitting
    message formData].
  now rewrite assign_commute.
Qed.

Lemma value_of_app (name : string) (l1 l2 : list (string * string)) :
  value_of name (l1 ++ l2) =
  match value_of name l1 with
  | Some v => Some v
  | None => value_of name l2
  end.
Proof.
  induction l1 as [|[n v] l1 IH]; simpl; [reflexivity|].
  destruct (n =? name); [reflexivity | exact IH].
Qed.

(** X17: after any sequence of edits each control shows the last value typed into
    it, or what it showed before when it was not edited. *)
Theorem typing_shows_last
    (edits : list (string * string)) (name : string) (s : State) :
  In name (map fst (controls (formData s))) ->
  value_of name (controls (formData (typing edits s))) =
  match value_of name (rev edits) with
  | Some v => Some v
  | None => value_of name (controls (formData s))
  end.
Proof.
  revert s. induction edits as [|[n v] rest IH]; intros s Hin; [reflexivity|].
  cbn [typing rev]. rewrite IH by (rewrite control_names in *; exact Hin).
  rewrite value_of_app. destruct (value_of name (rev rest)); [reflexivity|].
  rewrite handleChange_run. cbn [final formData value_of].
  destruct (String.eqb_spec n name) as [->|Hneq].
  - now apply assign_same.
  - apply assign_other. congruence.
Qed.

(** * The course choice across runs *)

Lemma course_options_values (cs : list Course.t) (v : string) :
  In v (map fst (course_options cs)) ->
  v = "" \/ In v (map Course.id cs).
Proof.
  unfold course_options. destruct cs as [|c cs]; cbn [length Nat.eqb].
  - simpl. intros [<-|[]]. now left.
  - rewrite map_map. cbn [fst]. intros H. now right.
Qed.

Lemma assign_keeps_course (name value : string) (f : FormData) :
  name <> "courseId" -> courseId (assign name value f) = courseId f.
Proof.
  intros Hneq. unfold assign. field_cases name; simpl; congruence.
Qed.

(** X18: a run of a handler keeps the course choice valid.  If the course
    held by the form is none or one of the courses in state, it still is
    after a run of [fetchCourses], after a run of [handleSubmit], and after a
    [handleChange] in which the course select reports the value of one of its
    options or any other control reports anything. *)
Theorem course_choice_kept (rt : Runtime) (user : option User.t) (s : State) :
  course_choice_valid s ->
  course_choice_valid (final (fetchCourses rt user s)) /\
  course_choice_valid (final (handleSubmit rt user s)) /\
  forall name value,
    (name = "courseId" -> In value (map fst (course_options (courses s)))) ->
    course_choice_valid (final (handleChange name value s)).
Proof.
  unfold course_choice_valid. intros Hvalid. split; [|split].
  - destruct (fetchCourses_state rt user s) as [[-> ->]|(c0 & cs & -> & ->)];
      [exact Hvalid|].
    right. exists c0. split; [now left | reflexivity].
  - destruct (handleSubmit_state rt user s) as [-> [->| ->]]; exact Hvalid.
  - intros name value Hdom. rewrite handleChange_run.
    cbn [final courses formData].
    destruct (String.eqb_spec name "courseId") as [->|Hneq].
    + destruct (course_options_values _ _ (Hdom eq_refl)) as [H|H];
        [now left | right].
      apply in_map_iff in H. destruct H as (course & Hid & Hin). eauto.
    + now rewrite assign_keeps_course.
Qed.

(** X19: when the course held by the form is none or one of the courses in
    state, every row [handleSubmit] inserts is for one of the courses in
    state. *)
Theorem insert_for_course_in_state
    (rt : Runtime) (user : option User.t) (s : State) (row : ClassData.t) :
  course_choice_valid s ->
  In row (inserts (emitted (handleSubmit rt user s))) ->
  exists course, In course (courses s) /\ Course.id course = ClassData.course_id row.
Proof.
  intros Hvalid Hrow.
  apply inserts_queries in Hrow. destruct Hrow as (q & Hq & Hverb).
  destruct (query_sent rt _ _ _ Hq) as (u & ts & te & V & ->).
  injection Hverb as <-. cbn [classData ClassData.course_id].
  destruct V as (_ & _ & Hreq & _).
  apply missing_required_false_iff in Hreq. destruct Hreq as (Hc & _).
  destruct Hvalid as [C|Hin]; [contradiction | exact Hin].
Qed.

(** * The further properties at work on the test doubles *)

Lemma ready_choice : course_choice_valid Faults.ready.
Proof.
  right. exists Demo.cse471. split; [left; reflexivity | reflexivity].
Qed.

(** A faculty user types "9am" as the start time. *)
Lemma handleSubmit_invalid_date_witness :
  message (final (handleSubmit Demo.rt (Some Demo.alice) (Demo.filled "9am" "10:00"))) =
  {| text := "Invalid date or time format"; type := "error" |}.
Proof.
  apply (handleSubmit_invalid_date Demo.rt Demo.alice (Demo.filled "9am" "10:00")
           eq_refl eq_refl).
  left. reflexivity.
Defined.

(** The accepted class is submitted a second time. *)
Lemma handleSubmit_twice_inserts_once_witness :
  queries (emitted (handleSubmit Demo.rt (Some Demo.alice)
    (final (handleSubmit Demo.rt (Some Demo.alice) (Demo.filled "09:00" "10:00"))))) = [].
Proof.
  eapply (handleSubmit_twice_inserts_once Demo.rt Demo.rt (Some Demo.alice)
            (Some Demo.alice) (Demo.filled "09:00" "10:00"));
    [left; reflexivity | reflexivity].
Defined.

(** The refused class is submitted again five seconds later. *)
Lemma handleSubmit_retry_witness :
  exists row row',
    queries (emitted (handleSubmit Faults.later (Some Demo.alice)
      (final (handleSubmit Demo.refusing (Some Demo.alice)
                           (Demo.filled "09:00" "10:00"))))) =
      [insertQuery row'] /\
    ClassData.start_time row' = ClassData.start_time row /\
    ClassData.updated_at row = "1740800000000" /\
    ClassData.updated_at row' = "1740800005000".
Proof.
  destruct (handleSubmit_retry Demo.refusing Faults.later (Some Demo.alice)
              (Demo.filled "09:00" "10:00")
              (sent Demo.refusing Demo.alice (Demo.filled "09:00" "10:00")
                    Demo.nine Demo.ten))
    as (row & row' & _ & Hq & _ & _ & _ & Hs & _ & _ & _ & _ & Hu & Hu').
  - reflexivity.
  - reflexivity.
  - left. reflexivity.
  - left. discriminate.
  - exists row, row'. auto.
Defined.

(** The row of the accepted class. *)
Lemma inserted_rows_well_formed_witness :
  ClassData.title
    (classData Demo.rt Demo.alice (Demo.form "09:00" "10:00")
               "1740819600000" "1740823200000") <> "".
Proof.
  eapply (inserted_rows_well_formed Demo.rt (Some Demo.alice)
            (Demo.filled "09:00" "10:00")).
  left. reflexivity.
Defined.

(** The page loads while the store is unreachable. *)
Lemma fetchCourses_first_read_fails_witness :
  final (fetchCourses Faults.offline (Some Demo.alice) initial) =
  mkState [] false false
    {| text := "Failed to load courses. Please refresh the page."; type := "error" |}
    (formData initial).
Proof.
  apply (fetchCourses_first_read_fails Faults.offline Demo.alice initial
           (Error "Failed to fetch") eq_refl).
  left. reflexivity.
Defined.

(** The page loads while the courses table times out. *)
Lemma fetchCourses_second_read_fails_witness :
  final (fetchCourses Faults.broken_catalogue (Some Demo.alice) initial) =
  mkState [] false false
    {| text := "Failed to load courses. Please refresh the page."; type := "error" |}
    (formData initial).
Proof.
  apply (fetchCourses_second_read_fails Faults.broken_catalogue Demo.alice initial
           (Assignment.mk "c1") [] (Error "timeout") eq_refl eq_refl).
  right. exists None. reflexivity.
Defined.

(** The page loads for an assignment to a course that does not exist. *)
Lemma fetchCourses_no_courses_found_witness :
  final (fetchCourses Faults.dangling (Some Demo.alice) initial) =
  mkState [] false false
    {| text := "No courses found. Please contact an administrator."; type := "error" |}
    (formData initial).
Proof.
  apply (fetchCourses_no_courses_found Faults.dangling Demo.alice initial
           (Assignment.mk "c9") [] (Some []) eq_refl eq_refl eq_refl eq_refl).
Defined.

(** The page loads for a faculty user with one course. *)
Lemma fetchCourses_loads_witness :
  final (fetchCourses Demo.rt (Some Demo.alice) initial) =
  mkState [Demo.cse471] false false {| text := ""; type := "" |}
          (assign "courseId" "c1" (formData initial)).
Proof.
  apply (fetchCourses_loads Demo.rt Demo.alice initial (Assignment.mk "c1") []
           Demo.cse471 [] eq_refl eq_refl eq_refl).
Defined.

(** Both outcomes of loading: with the store at hand, and without it. *)
Lemma fetchCourses_outcome_witness :
  (exists c0 cs,
     courses (final (fetchCourses Demo.rt (Some Demo.alice) initial)) = c0 :: cs /\
     courseId (formData (final (fetchCourses Demo.rt (Some Demo.alice) initial))) =
       Course.id c0) /\
  courses (final (fetchCourses Faults.offline (Some Demo.alice) initial)) = [].
Proof.
  split.
  - destruct (fetchCourses_outcome Demo.rt Demo.alice initial eq_refl eq_refl)
      as [(c0 & cs & H1 & H2 & _)|(C & _)]; [eauto | discriminate C].
  - destruct (fetchCourses_outcome Faults.offline Demo.alice initial eq_refl eq_refl)
      as [(c0 & cs & C & _)|(H & _)]; [discriminate C | exact H].
Defined.

(** The user types a title into the empty form. *)
Lemma handleChange_sets_control_witness :
  value_of "title"
    (controls (formData (final (handleChange "title" "Intro" initial)))) =
  Some "Intro".
Proof.
  apply (handleChange_sets_control "title" "Intro" initial).
  right. left. reflexivity.
Defined.

(** A title and a start date, typed in either order. *)
Lemma handleChange_commute_witness :
  final (handleChange "title" "Intro"
           (final (handleChange "startDate" "2025-03-01" initial))) =
  final (handleChange "startDate" "2025-03-01"
           (final (handleChange "title" "Intro" initial))).
Proof.
  apply (handleChange_commute "title" "Intro" "startDate" "2025-03-01" initial).
  discriminate.
Defined.

(** The title is typed, a date is typed, the title is corrected. *)
Lemma typing_shows_last_witness :
  value_of "title"
    (controls (formData (typing [("title", "Intro"); ("startDate", "2025-03-01");
                                 ("title", "Introduction")] initial))) =
  Some "Introduction".
Proof.
  apply (typing_shows_last
           [("title", "Intro"); ("startDate", "2025-03-01"); ("title", "Introduction")]
           "title" initial).
  right. left. reflexivity.
Defined.

(** The loaded and filled page, after one more load. *)
Lemma course_choice_kept_witness :
  course_choice_valid (final (fetchCourses Demo.rt (Some Demo.alice) Faults.ready)).
Proof.
  apply (course_choice_kept Demo.rt (Some Demo.alice) Faults.ready ready_choice).
Defined.

(** The class inserted from the loaded and filled page is for that course. *)
Lemma insert_for_course_in_state_witness :
  exists course, In course (courses Faults.ready) /\ Course.id course = "c1".
Proof.
  apply (insert_for_course_in_state Demo.rt (Some Demo.alice) Faults.ready
           (classData Demo.rt Demo.alice (formData Faults.ready)
                      "1740819600000" "1740823200000"));
    [exact ready_choice | left; reflexivity].
Defined.

(** The page while the insert of the 09:00 class is pending. *)
Lemma handleSubmit_busy_while_pending_witness :
  CreateClass (Some Demo.alice)
    (replay [EvPreventDefault; EvSetSubmitting true;
             EvSetMessage {| text := ""; type := "" |}]
            (Demo.filled "09:00" "10:00")) =
  Form None true.
Proof.
  destruct (handleSubmit_busy_while_pending Demo.rt (Some Demo.alice)
              (Demo.filled "09:00" "10:00")
              (sent Demo.rt Demo.alice (Demo.filled "09:00" "10:00")
                    Demo.nine Demo.ten))
    as (after & _ & _ & _ & _ & H); [left; reflexivity|].
  apply H. reflexivity.
Defined.
